(** * proxy/http_response.go: parsing an upstream HTTP response

    A shallow embedding of [DefaultHTTPResponseParserFactory] and
    [NoOpHTTPResponseParser] of package [proxy], together with the parts of
    the Go standard library they call ([net/textproto], [net/http],
    [compress/gzip], [io]), and the properties of the response they build. *)

From Stdlib Require Import Ascii String NArith ZArith List.
From Stdlib Require Import Strings.Byte.
From stdpp Require Import base decidable option list strings gmap fin_maps.

Local Open Scope string_scope.

(** ** net/textproto: canonical MIME header keys *)

Module textproto.

Definition byte_of (c : ascii) : N := N_of_ascii c.

(** [validHeaderFieldByte]: the 128-bit bitmap of the token characters of
    RFC 7230, tested with a shift and an and; no byte above 127 has its bit
    set. *)
Definition mask : N :=
  fold_right N.lor 0%N
    ( N.shiftl (N.ones 10) (byte_of "0")
   :: N.shiftl (N.ones 26) (byte_of "a")
   :: N.shiftl (N.ones 26) (byte_of "A")
   :: map (fun c => N.shiftl 1 (byte_of c))
        [ "!"; "#"; "$"; "%"; "&"; "'"; "*"; "+"; "-"; "."; "^"; "_"; "`";
          "|"; "~" ]%char ).

Definition validHeaderFieldByte (c : ascii) : bool := N.testbit mask (byte_of c).

Definition is_lower (c : ascii) : bool :=
  (byte_of "a" <=? byte_of c)%N && (byte_of c <=? byte_of "z")%N.

Definition is_upper (c : ascii) : bool :=
  (byte_of "A" <=? byte_of c)%N && (byte_of c <=? byte_of "Z")%N.

(** ['a' - 'A'] *)
Definition toLower : N := byte_of "a" - byte_of "A".

(** The body of the rewriting loop of [canonicalMIMEHeaderKey], for one
    byte. *)
Definition canon_byte (upper : bool) (c : ascii) : ascii :=
  if upper && is_lower c then ascii_of_N (byte_of c - toLower)
  else if negb upper && is_upper c then ascii_of_N (byte_of c + toLower)
  else c.

(** The rewriting loop of [canonicalMIMEHeaderKey]: first letter upper
    case, and upper case after each dash; every other letter lower case. *)
Fixpoint canon_loop (upper : bool) (a : string) : string :=
  match a with
  | EmptyString => EmptyString
  | String c a' =>
      let c' := canon_byte upper c in
      String c' (canon_loop (Ascii.eqb c' "-") a')
  end.

(** Every byte of the key is a token character. *)
Definition all_valid (a : string) : bool :=
  forallb validHeaderFieldByte (list_ascii_of_string a).

(** The validity scan that opens [canonicalMIMEHeaderKey]: [None] when a
    byte is neither a token character nor a space (the bytes are returned
    unchanged), otherwise [Some noCanon]. *)
Fixpoint scan_key (noCanon : bool) (a : string) : option bool :=
  match a with
  | EmptyString => Some noCanon
  | String c a' =>
      if validHeaderFieldByte c then scan_key noCanon a'
      else if Ascii.eqb c " " then scan_key true a'
      else None
  end.

(** [canonicalMIMEHeaderKey]; the final lookup in [commonHeader] returns an
    equal string and is not represented. *)
Definition canonicalMIMEHeaderKey (a : string) : string * bool :=
  match scan_key false a with
  | None => (a, false)
  | Some true => (a, true)
  | Some false => (canon_loop true a, true)
  end.

(** The quick check of [CanonicalMIMEHeaderKey]: [s] is the whole key,
    [rest] what the loop has still to visit. *)
Fixpoint quick_check (upper : bool) (rest s : string) : string :=
  match rest with
  | EmptyString => s
  | String c rest' =>
      if negb (validHeaderFieldByte c) then s
      else if upper && is_lower c then fst (canonicalMIMEHeaderKey s)
      else if negb upper && is_upper c then fst (canonicalMIMEHeaderKey s)
      else quick_check (Ascii.eqb c "-") rest' s
  end.

Definition CanonicalMIMEHeaderKey (s : string) : string := quick_check true s s.

End textproto.

(** ** net/http: headers and responses *)

(** [type Header map[string][]string] *)
Abbreviation http_Header := (gmap string (list string)).

Module http.

(** [func (h Header) Get(key string) string]: the first value under the
    canonical form of [key], or the empty string. *)
Definition Header_Get (h : http_Header) (key : string) : string :=
  match h !! textproto.CanonicalMIMEHeaderKey key with
  | Some (v :: _) => v
  | _ => ""
  end.

(** [func (h Header) Set(key, value string)]: replaces whatever is stored
    under the canonical form of [key] by the single value. *)
Definition Header_Set (h : http_Header) (key value : string) : http_Header :=
  <[textproto.CanonicalMIMEHeaderKey key := [value]]> h.

(** [http.Response], the fields the parsers read; [Body] is the content of
    the body stream, which the client hands over open and never nil. *)
Record Response : Type :=
  { StatusCode : Z; Header : http_Header; Body : list byte }.

End http.

(** ** Errors, contexts and byte streams *)

(** Go's [error] values the model tells apart: the sentinels of [io],
    [compress/gzip] and [context], and the errors a decoder makes up. *)
Inductive error : Type :=
  | io_EOF
  | io_ErrUnexpectedEOF
  | gzip_ErrHeader
  | gzip_ErrChecksum
  | context_Canceled
  | context_DeadlineExceeded
  | errors_New (msg : string).

Module context.

(** [context.Context], as far as this file looks at it: what [ctx.Err()]
    answers, [None] while the context is live. *)
Record Context : Type := { Err : option error }.

Definition Background : Context := {| Err := None |}.

End context.

Module io.

(** One [Read(p)] with [len(p) = n] on a stream that still holds [data]
    and ends in the error [fin]: the bytes delivered, the error returned,
    and what is left. *)
Definition read_bytes (n : nat) (data : list byte) (fin : error)
  : list byte * option error * list byte :=
  match data with
  | [] => ([], Some fin, [])
  | _ => (take n data, None, drop n data)
  end.

End io.

(** ** compress/gzip *)

Module gzip.

(** An open [*gzip.Reader]: the decompressed bytes it has still to deliver
    and the error that follows them ([io.EOF] after a sound stream, a
    checksum or corruption error otherwise). *)
Record Reader : Type := { pending : list byte; final : error }.

(** The fixed ten-byte member header that [readHeader] reads first: the
    bytes must be there, and start with ID1 = 0x1f, ID2 = 0x8b, CM = 8. *)
Definition fixed_header (r : list byte) : option error :=
  match r with
  | [] => Some io_EOF
  | id1 :: id2 :: cm :: _ :: _ :: _ :: _ :: _ :: _ :: _ :: _ =>
      if Byte.eqb id1 x1f && Byte.eqb id2 x8b && Byte.eqb cm x08 then None
      else Some gzip_ErrHeader
  | _ => Some io_ErrUnexpectedEOF
  end.

Section NewReader.

(** The rest of [readHeader] (the optional fields and the header
    checksum) and the [compress/flate] decompressor behind it are taken
    as given: [open_member r] is the error that refuses the header, or
    the reader over the decompressed stream. *)
Variable open_member : list byte -> error + Reader.

(** [gzip.NewReader(r)]: the open reader and a nil error, or a nil
    reader together with the error when the header does not parse. *)
Definition NewReader (r : list byte) : option Reader * option error :=
  match fixed_header r with
  | Some e => (None, Some e)
  | None =>
      match open_member r with
      | inl e => (None, Some e)
      | inr z => (Some z, None)
      end
  end.

End NewReader.

End gzip.

(** ** config *)

Module config.

(** Modelled from the spec: [config.Backend] is declared outside this
    file; of the backend's settings the parser reads only the list of the
    header names to take over from the response. *)
Record Backend : Type := { HeadersFromResponse : list string }.

End config.

(** Equality of two byte strings. *)
Fixpoint bytes_eqb (p q : list byte) : bool :=
  match p, q with
  | [], [] => true
  | a :: p', b :: q' => Byte.eqb a b && bytes_eqb p' q'
  | _, _ => false
  end.

(** ** Package proxy *)

(** A Go call either returns or panics. *)
Inductive outcome (A : Type) : Type :=
  | Returns (a : A)
  | Panics.
Arguments Returns {A} a.
Arguments Panics {A}.

Section Proxy.

(** The dynamic values of [interface{}] that a payload holds. *)
Variable any : Type.

(** What [gzip.NewReader] finds behind the fixed header. *)
Variable open_member : list byte -> error + gzip.Reader.

(** Modelled from the spec: [Metadata] is declared outside this file; its
    fields are those the struct literals of the parsers set, the spec's
    response metadata: a status code and a header map. An omitted field has
    Go's zero value, [0] for the status code. *)
Record Metadata : Type := { Headers : http_Header; StatusCode : Z }.

(** Modelled from the spec: the value [NewReadCloserWrapper] returns, a type
    declared outside this file. The wrapper holds the cancellation context
    it is bound to and the raw body it reads from. *)
Record readCloserWrapper : Type :=
  { wrapper_ctx : context.Context; wrapper_rc : list byte }.

(** Modelled from the spec: [Response] is declared outside this file; its
    fields are those the struct literals of the parsers set, the spec's
    NormalizedResponse: a payload, a completeness flag, metadata, and an
    optional still-open byte stream. An omitted field has Go's zero value:
    [None] for the nil map and for the nil stream. *)
Record Response : Type :=
  { Data : option (gmap string any);
    IsComplete : bool;
    Metadata_ : Metadata;
    Io : option readCloserWrapper }.

(** Modelled from the spec: [NewReadCloserWrapper] is declared outside this
    file; it wraps the raw body in a stream bound to the context. The
    goroutine that closes the body on cancellation is not represented. *)
Definition NewReadCloserWrapper (ctx : context.Context) (body : list byte)
  : readCloserWrapper :=
  {| wrapper_ctx := ctx; wrapper_rc := body |}.

(** Modelled from the spec: reading the wrapper to completion
    ([io.ReadAll]) yields the raw body; once the context is cancelled a
    read fails with the cancellation error. *)
Definition wrapper_ReadAll (w : readCloserWrapper) : list byte * option error :=
  match context.Err (wrapper_ctx w) with
  | Some e => ([], Some e)
  | None => (wrapper_rc w, None)
  end.

(** Modelled from the spec: [EntityFormatter] is an interface declared
    outside this file, with the one method [Format], a total transform of
    responses without an error channel. *)
Record EntityFormatter : Type := { Format : Response -> Response }.

(** Modelled from the spec: [EntityFormatterFunc], declared outside this
    file, adapts a function to the interface: its [Format] calls the
    function. *)
Definition EntityFormatterFunc (f : Response -> Response) : EntityFormatter :=
  {| Format := f |}.

(** The values the parser assigns to [reader io.ReadCloser]: the body of
    the response, or the result of [gzip.NewReader], a [*gzip.Reader] that
    is nil ([None]) when the stream did not open. *)
Inductive ReadCloser : Type :=
  | body_stream (data : list byte)
  | gzip_stream (z : option gzip.Reader).

(** [reader.Read(p)] with [len(p) = n]: [None] is the nil pointer
    dereference of the [Read] method of [*gzip.Reader] on a nil receiver. *)
Definition ReadCloser_Read (r : ReadCloser) (n : nat)
  : option (list byte * option error * ReadCloser) :=
  match r with
  | body_stream d =>
      let '(p, e, d') := io.read_bytes n d io_EOF in
      Some (p, e, body_stream d')
  | gzip_stream None => None
  | gzip_stream (Some z) =>
      let '(p, e, d') := io.read_bytes n (gzip.pending z) (gzip.final z) in
      Some (p, e, gzip_stream (Some {| gzip.pending := d'; gzip.final := gzip.final z |}))
  end.

(** Modelled from the spec: [encoding.Decoder] is declared outside this
    file, a [func(io.Reader, *map[string]interface{}) error] by the function
    literal of [DefaultHTTPResponseParserConfig]. A decoder is what the
    function does with its reader, as a tree: it returns, having left
    [data] behind the pointer ([None]: the map is still nil) and answering
    [err]; or it reads [n] bytes and goes on with what the read gave. A
    decoder always comes to an end, and panics only where a read does. *)
Inductive Decoder : Type :=
  | Return (data : option (gmap string any)) (err : option error)
  | Read (n : nat) (k : list byte -> option error -> Decoder).

(** The decoder run on a reader: [None] when a read panics. *)
Fixpoint run_decoder (d : Decoder) (r : ReadCloser)
  : option (option (gmap string any) * option error) :=
  match d with
  | Return data err => Some (data, err)
  | Read n k =>
      match ReadCloser_Read r n with
      | None => None
      | Some (p, e, r') => run_decoder (k p e) r'
      end
  end.

(** What a parser does to its collaborators, in order: the call of the
    decoder on a reader, the call of the formatter on a response, and the
    release of the gzip reader and of the raw body. *)
Inductive event : Type :=
  | Decode_call (reader : ReadCloser)
  | Format_call (r : Response)
  | Close_gzip
  | Close_body.

(** A Go function body: from the trace so far to the outcome and the trace
    extended. *)
Definition go (A : Type) : Type := list event -> outcome A * list event.

Definition ret {A} (a : A) : go A := fun t => (Returns a, t).

Definition bind {A B} (m : go A) (k : A -> go B) : go B :=
  fun t =>
    match m t with
    | (Returns a, t') => k a t'
    | (Panics, t') => (Panics, t')
    end.

Definition emit (e : event) : go unit := fun t => (Returns tt, (t ++ [e])%list).

Definition panic {A} : go A := fun t => (Panics, t).

(** [defer d] ahead of [body]: [d] runs when [body] is left, by a return
    or by a panic, and a panic of [d] replaces a return. *)
Definition defer {A} (d : go unit) (body : go A) : go A :=
  fun t =>
    let '(o, t1) := body t in
    match d t1 with
    | (Returns _, t2) => (o, t2)
    | (Panics, t2) => (Panics, t2)
    end.

#[local] Instance go_ret : MRet go := @ret.
#[local] Instance go_bind : MBind go := fun A B k m => bind m k.

(** [reader.Close()]: the [Close] method of [*gzip.Reader] dereferences
    its receiver, and panics on a nil one. *)
Definition ReadCloser_Close (r : ReadCloser) : go unit :=
  match r with
  | body_stream _ => emit Close_body
  | gzip_stream None => panic
  | gzip_stream (Some _) => emit Close_gzip
  end.

Definition call_decoder (d : Decoder) (reader : ReadCloser)
  : go (option (gmap string any) * option error) :=
  _ ← emit (Decode_call reader);
  match run_decoder d reader with
  | None => panic
  | Some res => ret res
  end.

Definition call_Format (f : EntityFormatter) (r : Response) : go Response :=
  _ ← emit (Format_call r); ret (Format f r).

(** [HTTPResponseParserConfig] *)
Record HTTPResponseParserConfig : Type :=
  { Decoder_ : Decoder; EntityFormatter_ : EntityFormatter }.

(** [HTTPResponseParser]: the pair returned is the response pointer
    ([None]: nil) and the error ([None]: nil). *)
Definition HTTPResponseParser : Type :=
  context.Context -> http.Response -> go (option Response * option error).

(** [HTTPResponseParserFactory] *)
Definition HTTPResponseParserFactory : Type :=
  HTTPResponseParserConfig -> HTTPResponseParser.

(** [DefaultHTTPResponseParserConfig]: a decoder that returns nil without
    touching its arguments, and the identity formatter. *)
Definition DefaultHTTPResponseParserConfig : HTTPResponseParserConfig :=
  {| Decoder_ := Return None None;
     EntityFormatter_ := EntityFormatterFunc (fun r => r) |}.

(** The loop over [remote.HeadersFromResponse]. *)
Definition project_header (H : http_Header) (responseHeader : http_Header) (name : string)
  : http_Header :=
  let headerFromResponse := textproto.CanonicalMIMEHeaderKey name in
  if negb (String.eqb (http.Header_Get H headerFromResponse) "")
  then http.Header_Set responseHeader headerFromResponse
         (http.Header_Get H headerFromResponse)
  else responseHeader.

Definition project_headers (remote : config.Backend) (H : http_Header) : http_Header :=
  foldl (project_header H) ∅ (config.HeadersFromResponse remote).

(** [DefaultHTTPResponseParserFactory] *)
Definition DefaultHTTPResponseParserFactory
    (remote : config.Backend) (cfg : HTTPResponseParserConfig) : HTTPResponseParser :=
  fun ctx resp =>
    defer (ReadCloser_Close (body_stream (http.Body resp))) (
      let decode_from (reader : ReadCloser) : go (option Response * option error) :=
        '(data, err) ← call_decoder (Decoder_ cfg) reader;
        match err with
        | Some err => ret (None, Some err)
        | None =>
            let responseHeader := project_headers remote (http.Header resp) in
            let newResponse :=
              {| Data := data;
                 IsComplete := true;
                 Metadata_ := {| Headers := responseHeader; StatusCode := 0 |};
                 Io := None |} in
            newResponse ← call_Format (EntityFormatter_ cfg) newResponse;
            ret (Some newResponse, None)
        end in
      if String.eqb (http.Header_Get (http.Header resp) "Content-Encoding") "gzip"
      then
        let reader := gzip_stream (fst (gzip.NewReader open_member (http.Body resp))) in
        defer (ReadCloser_Close reader) (decode_from reader)
      else
        decode_from (body_stream (http.Body resp))).

(** [NoOpHTTPResponseParser] *)
Definition NoOpHTTPResponseParser : HTTPResponseParser :=
  fun ctx resp =>
    ret (Some {| Data := Some ∅;
                 IsComplete := true;
                 Io := Some (NewReadCloserWrapper ctx (http.Body resp));
                 Metadata_ := {| StatusCode := http.StatusCode resp;
                                 Headers := http.Header resp |} |},
         None).

(** A call from a fresh trace. *)
Definition call {A} (m : go A) : outcome A * list event := m [].

(** The effective byte source in the spec's words: the value [gzip] of the
    Content-Encoding header selects a gzip-decoding stream wrapped around the
    raw body, any other value (an absent header too) the raw body unchanged. *)
Definition effective_byte_source (resp : http.Response) : ReadCloser :=
  if bool_decide (http.Header_Get (http.Header resp) "Content-Encoding" = "gzip")
  then gzip_stream (fst (gzip.NewReader open_member (http.Body resp)))
  else body_stream (http.Body resp).

(** The response the decode path builds from a decoded payload, before it
    is formatted, in the spec's words: completeness true, the payload, the
    projected headers, no status code, no stream. *)
Definition constructed_response (remote : config.Backend) (resp : http.Response)
    (data : option (gmap string any)) : Response :=
  {| Data := data;
     IsComplete := true;
     Metadata_ := {| Headers := project_headers remote (http.Header resp);
                     StatusCode := 0 |};
     Io := None |}.

(** The releases a reader asks for when the parser is left, innermost
    first. *)
Definition releases (reader : ReadCloser) : list event :=
  match reader with
  | gzip_stream (Some _) => [Close_gzip; Close_body]
  | _ => [Close_body]
  end.

(** The releases in a trace, in the order they happened. *)
Definition is_close (e : event) : bool :=
  match e with
  | Close_gzip | Close_body => true
  | _ => false
  end.

Definition closes (t : list event) : list event := List.filter is_close t.

(** The two content carriers of a response: a payload with at least one
    key, and an attached stream. *)
Definition payload_populated (r : Response) : bool :=
  match Data r with
  | Some m => negb (Nat.eqb (size m) 0)
  | None => false
  end.

Definition stream_attached (r : Response) : bool :=
  match Io r with
  | Some _ => true
  | None => false
  end.

(** Exactly one of the two carriers is active. *)
Definition one_carrier (r : Response) : bool :=
  xorb (payload_populated r) (stream_attached r).

End Proxy.

Arguments Build_Response {any}.
Arguments Data {any}.
Arguments IsComplete {any}.
Arguments Metadata_ {any}.
Arguments Io {any}.
Arguments Build_EntityFormatter {any}.
Arguments Format {any}.
Arguments EntityFormatterFunc {any}.
Arguments Return {any}.
Arguments Read {any}.
Arguments run_decoder {any}.
Arguments Decode_call {any}.
Arguments Format_call {any}.
Arguments Close_gzip {any}.
Arguments Close_body {any}.
Arguments Build_HTTPResponseParserConfig {any}.
Arguments Decoder_ {any}.
Arguments EntityFormatter_ {any}.
Arguments DefaultHTTPResponseParserFactory {any}.
Arguments NoOpHTTPResponseParser {any}.
Arguments call {any A}.
Arguments constructed_response {any}.
Arguments releases {any}.
Arguments is_close {any}.
Arguments closes {any}.
Arguments payload_populated {any}.
Arguments stream_attached {any}.
Arguments one_carrier {any}.

(** ** Sample inputs *)

(** The bytes of [{"a":1}]. *)
Definition body_a1 : list byte := [x7b; x22; x61; x22; x3a; x31; x7d].

(** The bytes of [{}]. *)
Definition body_empty_object : list byte := [x7b; x7d].

(** Status 200, the header [X-Foo: bar], the body [{"a":1}]. *)
Definition response_a1 : http.Response :=
  {| http.StatusCode := 200;
     http.Header := {[ "X-Foo" := ["bar"] ]};
     http.Body := body_a1 |}.

(** A response that announces gzip and whose body is no gzip stream. *)
Definition response_not_gzip : http.Response :=
  {| http.StatusCode := 200;
     http.Header := {[ "Content-Encoding" := ["gzip"] ]};
     http.Body := body_a1 |}.

(** A response with a header of several values. *)
Definition response_multi : http.Response :=
  {| http.StatusCode := 200;
     http.Header := {[ "Set-Cookie" := ["a=1"; "b=2"]; "X-Foo" := ["bar"] ]};
     http.Body := body_empty_object |}.

Definition backend_allow (names : list string) : config.Backend :=
  {| config.HeadersFromResponse := names |}.

(** A gzip package that opens no stream at all; the sample runs that do not
    announce gzip never ask it. *)
Definition no_member : list byte -> error + gzip.Reader :=
  fun _ => inl gzip_ErrHeader.

(** A decoder in the manner of a JSON decoder, cut down to the one document
    [{}]: it reads the stream to its end and stores the empty object, or
    answers an error. *)
Definition decode_empty_object : Decoder Z :=
  Read 512 (fun p _ =>
    if bytes_eqb p body_empty_object
    then Read 512 (fun q e =>
           match q, e with
           | [], Some io_EOF => Return (Some ∅) None
           | _, _ => Return None (Some (errors_New "invalid character"))
           end)
    else Return None (Some (errors_New "invalid character"))).

(** Ten header bytes of a gzip member (magic, deflate, no flags) and what
    would be its compressed data. *)
Definition body_gzip_member : list byte :=
  [x1f; x8b; x08; x00; x00; x00; x00; x00; x00; xff; xab; xae; x05; x00].

(** A response that announces gzip and carries [body_gzip_member]. *)
Definition response_gzip : http.Response :=
  {| http.StatusCode := 200;
     http.Header := {[ "Content-Encoding" := ["gzip"]; "X-Foo" := ["bar"] ]};
     http.Body := body_gzip_member |}.

(** A response whose Content-Encoding is [value]. *)
Definition response_encoded (value : string) : http.Response :=
  {| http.StatusCode := 200;
     http.Header := {[ "Content-Encoding" := [value] ]};
     http.Body := body_a1 |}.

(** A gzip package whose members all decompress to [{}]. *)
Definition member_empty_object : list byte -> error + gzip.Reader :=
  fun _ => inr {| gzip.pending := body_empty_object; gzip.final := io_EOF |}.

(** A gzip package whose members open and then fail their checksum. *)
Definition member_corrupt : list byte -> error + gzip.Reader :=
  fun _ => inr {| gzip.pending := []; gzip.final := gzip_ErrChecksum |}.

(** A decoder that reads once and answers the error of the read. *)
Definition decode_first_read : Decoder Z :=
  Read 512 (fun _ e => Return None e).

(** A decoder that stores a key before it answers an error, as a decoder
    does that fails in the middle of a document. *)
Definition decode_partial : Decoder Z :=
  Read 512 (fun _ _ =>
    Return (Some {[ "a" := 1%Z ]}) (Some (errors_New "unexpected end of input"))).

(** A response whose header map was built by hand, with keys that are not
    in canonical form. *)
Definition response_lower_keys : http.Response :=
  {| http.StatusCode := 200;
     http.Header := {[ "content-encoding" := ["gzip"]; "x-foo" := ["bar"] ]};
     http.Body := body_a1 |}.

(** The same body without any header, under another status code. *)
Definition response_bare : http.Response :=
  {| http.StatusCode := 404; http.Header := ∅; http.Body := body_a1 |}.

(** A formatter that empties the header set of the response it is given. *)
Definition drop_headers : EntityFormatter Z :=
  EntityFormatterFunc (fun r =>
    {| Data := Data r;
       IsComplete := IsComplete r;
       Metadata_ := {| Headers := ∅; StatusCode := StatusCode (Metadata_ r) |};
       Io := Io r |}).

(** ** Properties of the header functions *)

(** The bytes [validHeaderFieldByte] accepts are the token characters. *)
Example valid_header_field_bytes :
string_of_list_ascii
  (List.filter textproto.validHeaderFieldByte
     (map (fun n => ascii_of_nat n) (seq 0 256)))
= "!#$%&'*+-.0123456789ABCDEFGHIJKLMNOPQRSTUVWXYZ^_`abcdefghijklmnopqrstuvwxyz|~".
Proof. vm_compute. reflexivity. Qed.

Example canon_lower : textproto.CanonicalMIMEHeaderKey "content-encoding" = "Content-Encoding".
Proof. reflexivity. Qed.

Example canon_mixed : textproto.CanonicalMIMEHeaderKey "x-FOO-bar" = "X-Foo-Bar".
Proof. reflexivity. Qed.

Example canon_invalid : textproto.CanonicalMIMEHeaderKey "x foo" = "x foo".
Proof. reflexivity. Qed.


Section Canonical.

Import textproto.

Lemma canon_loop_cons upper c a :
  canon_loop upper (String c a)
  = String (canon_byte upper c)
      (canon_loop (Ascii.eqb (canon_byte upper c) "-") a).
Proof. reflexivity. Qed.

Lemma canon_byte_idem upper c :
  canon_byte upper (canon_byte upper c) = canon_byte upper c.
Proof. destruct upper, c as [[] [] [] [] [] [] [] []]; reflexivity. Qed.

Lemma canon_byte_valid upper c :
  validHeaderFieldByte c = true ->
  validHeaderFieldByte (canon_byte upper c) = true.
Proof.
  destruct upper, c as [[] [] [] [] [] [] [] []]; vm_compute; intros H; congruence.
Qed.

Lemma all_valid_cons c a :
  all_valid (String c a) = validHeaderFieldByte c && all_valid a.
Proof. reflexivity. Qed.

Lemma append_snoc pre c tl :
  pre ++ String c tl = (pre ++ String c "") ++ tl.
Proof.
  induction pre as [|d pre IHp]; [reflexivity|].
  change (String d (pre ++ String c tl) = String d ((pre ++ String c "") ++ tl)).
  by rewrite IHp.
Qed.

Lemma all_valid_app x y : all_valid (x ++ y) = all_valid x && all_valid y.
Proof.
  induction x as [|d x IHx]; [reflexivity|].
  change (all_valid (String d (x ++ y)) = all_valid (String d x) && all_valid y).
  rewrite !all_valid_cons, IHx. by rewrite andb_assoc.
Qed.

Lemma canon_loop_idem a : forall upper,
  canon_loop upper (canon_loop upper a) = canon_loop upper a.
Proof.
  induction a as [|c a IH]; intros upper; [reflexivity|].
  rewrite !canon_loop_cons, canon_byte_idem. f_equal. apply IH.
Qed.

Lemma canon_loop_valid a : forall upper,
  all_valid a = true -> all_valid (canon_loop upper a) = true.
Proof.
  induction a as [|c a IH]; intros upper; [reflexivity|].
  rewrite canon_loop_cons, !all_valid_cons, !andb_true_iff.
  intros [Hc Ha]. split; [by apply canon_byte_valid | by apply IH].
Qed.

Lemma scan_key_valid a : forall noCanon,
  all_valid a = true -> scan_key noCanon a = Some noCanon.
Proof.
  induction a as [|c a IH]; intros noCanon; [reflexivity|].
  rewrite all_valid_cons, andb_true_iff. intros [Hc Ha].
  simpl. rewrite Hc. by apply IH.
Qed.

Lemma scan_key_noCanon a : scan_key true a <> Some false.
Proof.
  induction a as [|c a IH]; [discriminate|].
  simpl. destruct (validHeaderFieldByte c); [exact IH|].
  destruct (Ascii.eqb c " "); [exact IH|discriminate].
Qed.

Lemma scan_key_invalid a : forall noCanon,
  all_valid a = false -> scan_key noCanon a <> Some false.
Proof.
  induction a as [|c a IH]; intros noCanon; [discriminate|].
  rewrite all_valid_cons. simpl.
  destruct (validHeaderFieldByte c); simpl; [apply IH|].
  intros _. destruct (Ascii.eqb c " "); [apply scan_key_noCanon|discriminate].
Qed.

Lemma canonicalMIMEHeaderKey_fst a :
  fst (canonicalMIMEHeaderKey a) = if all_valid a then canon_loop true a else a.
Proof.
  unfold canonicalMIMEHeaderKey. destruct (all_valid a) eqn:Hv.
  - by rewrite scan_key_valid.
  - pose proof (scan_key_invalid a false Hv) as Hs.
    destruct (scan_key false a) as [[]|]; [reflexivity|congruence|reflexivity].
Qed.

(** The quick check agrees with the rewriting loop: [pre] is the part
    already visited, found valid and in canonical form. *)
Lemma quick_check_spec rest : forall pre upper,
  all_valid pre = true ->
  (forall tl, canon_loop true (pre ++ tl) = pre ++ canon_loop upper tl) ->
  quick_check upper rest (pre ++ rest)
  = if all_valid (pre ++ rest) then canon_loop true (pre ++ rest) else pre ++ rest.
Proof.
  induction rest as [|c rest IH]; intros pre upper Hpre Hcanon.
  - simpl. rewrite (Hcanon ""). simpl.
    destruct (all_valid (pre ++ "")); reflexivity.
  - pose proof (append_snoc pre c) as Hsplit.
    pose proof all_valid_app as Hval.
    cbn [quick_check].
    destruct (validHeaderFieldByte c) eqn:Hc; cbn [negb].
    + destruct (upper && is_lower c) eqn:Hl;
        [apply canonicalMIMEHeaderKey_fst|].
      destruct (negb upper && is_upper c) eqn:Hu;
        [apply canonicalMIMEHeaderKey_fst|].
      rewrite Hsplit. apply IH.
      * rewrite Hval, Hpre, all_valid_cons, Hc. reflexivity.
      * intros tl. rewrite <- !Hsplit, Hcanon, canon_loop_cons.
        unfold canon_byte. rewrite Hl, Hu. reflexivity.
    + rewrite Hval, all_valid_cons, Hc, andb_false_r. reflexivity.
Qed.

(** What [CanonicalMIMEHeaderKey] computes: a key made of token characters
    only is rewritten, any other key is returned as it is. *)
Lemma CanonicalMIMEHeaderKey_spec s :
  CanonicalMIMEHeaderKey s = if all_valid s then canon_loop true s else s.
Proof. apply (quick_check_spec s "" true); [reflexivity|reflexivity]. Qed.

Lemma CanonicalMIMEHeaderKey_idem s :
  CanonicalMIMEHeaderKey (CanonicalMIMEHeaderKey s) = CanonicalMIMEHeaderKey s.
Proof.
  rewrite (CanonicalMIMEHeaderKey_spec s). destruct (all_valid s) eqn:Hv.
  - rewrite CanonicalMIMEHeaderKey_spec, canon_loop_valid by done.
    apply canon_loop_idem.
  - rewrite CanonicalMIMEHeaderKey_spec, Hv. reflexivity.
Qed.

End Canonical.

(** ** Properties of the header projection *)

Section Projection.

Variable H : http_Header.

Lemma Header_Get_canonical name :
http.Header_Get H (textproto.CanonicalMIMEHeaderKey name)
= match H !! textproto.CanonicalMIMEHeaderKey name with
  | Some (v :: _) => v
  | _ => ""
  end.
Proof. unfold http.Header_Get. by rewrite CanonicalMIMEHeaderKey_idem. Qed.

Lemma Header_Get_idem name :
http.Header_Get H (textproto.CanonicalMIMEHeaderKey name) = http.Header_Get H name.
Proof. unfold http.Header_Get. by rewrite CanonicalMIMEHeaderKey_idem. Qed.

(** One turn of the loop: the header is stored under the canonical name when
    the response has a value for it, and nothing else changes. *)
Lemma project_header_lookup acc name k :
project_header H acc name !! k
= if decide (textproto.CanonicalMIMEHeaderKey name = k
             ∧ http.Header_Get H k ≠ "")
  then Some [http.Header_Get H k]
  else acc !! k.
Proof.
unfold project_header, http.Header_Set.
rewrite CanonicalMIMEHeaderKey_idem.
destruct (String.eqb_spec
            (http.Header_Get H (textproto.CanonicalMIMEHeaderKey name)) "")
  as [He|He]; simpl.
- case_decide as Hd; [|done]. destruct Hd as [<- Hne]. contradiction.
- rewrite lookup_insert.
  destruct (decide (textproto.CanonicalMIMEHeaderKey name = k)) as [<-|Hk].
  + rewrite decide_True by done. reflexivity.
  + rewrite decide_False by tauto. reflexivity.
Qed.

(** The whole loop, from any header set already built. *)
Lemma foldl_project_header_lookup names : forall acc k,
foldl (project_header H) acc names !! k
= if decide (Exists (fun name => textproto.CanonicalMIMEHeaderKey name = k
                                 ∧ http.Header_Get H k ≠ "") names)
  then Some [http.Header_Get H k]
  else acc !! k.
Proof.
induction names as [|n names IH]; intros acc k; cbn [foldl].
- rewrite decide_False; [done|]. by intros ?%Exists_nil.
- rewrite IH, project_header_lookup.
  destruct (decide (Exists (fun name => textproto.CanonicalMIMEHeaderKey name = k
                                 ∧ http.Header_Get H k ≠ "") names)) as [Hex|Hno].
  + rewrite decide_True; [done|]. by apply Exists_cons_tl.
  + destruct (decide (textproto.CanonicalMIMEHeaderKey n = k
                      ∧ http.Header_Get H k ≠ "")) as [Hn|Hn].
    * rewrite decide_True; [done|]. by apply Exists_cons_hd.
    * rewrite decide_False; [done|]. by intros [?|?]%Exists_cons.
Qed.

Lemma project_headers_lookup remote k :
project_headers remote H !! k
= if decide (Exists (fun name => textproto.CanonicalMIMEHeaderKey name = k
                                 ∧ http.Header_Get H k ≠ "")
               (config.HeadersFromResponse remote))
  then Some [http.Header_Get H k]
  else None.
Proof. unfold project_headers. by rewrite foldl_project_header_lookup, lookup_empty. Qed.

Lemma project_headers_iff remote k vs :
project_headers remote H !! k = Some vs
<-> ∃ name, name ∈ config.HeadersFromResponse remote
          ∧ textproto.CanonicalMIMEHeaderKey name = k
          ∧ http.Header_Get H k ≠ ""
          ∧ vs = [http.Header_Get H k].
Proof.
rewrite project_headers_lookup. case_decide as Hd; split.
- intros [= <-]. apply Exists_exists in Hd as (n & ? & ? & ?). eauto 6.
- intros (n & ? & ? & ? & ->). done.
- done.
- intros (n & ? & ? & ? & ->). exfalso. apply Hd, Exists_exists. eauto.
Qed.

Lemma project_headers_perm remote remote' :
config.HeadersFromResponse remote ≡ₚ config.HeadersFromResponse remote' ->
project_headers remote H = project_headers remote' H.
Proof.
intros Hp. apply map_eq. intros k. rewrite !project_headers_lookup.
apply decide_ext. by rewrite Hp.
Qed.

End Projection.

(** ** Properties of the parsers *)

Section Parsers.

Variable any : Type.
Variable open_member : list byte -> error + gzip.Reader.

Local Abbreviation parse remote cfg ctx resp :=
  (call (DefaultHTTPResponseParserFactory open_member remote cfg ctx resp)).

(** What a run of the decode path comes to, case by case: the decoder
    panics on its reader, answers an error, or succeeds; and the deferred
    release of a nil gzip reader panics whatever came before. *)
Lemma decode_path_run (remote : config.Backend)
  (cfg : HTTPResponseParserConfig any) ctx resp :
parse remote cfg ctx resp
= let reader := effective_byte_source open_member resp in
  let leave (o : outcome (option (Response any) * option error)) :=
    match reader with
    | gzip_stream None => Panics
    | _ => o
    end in
  match run_decoder (Decoder_ cfg) reader with
  | None => (Panics, Decode_call reader :: releases reader)
  | Some (_, Some err) =>
      (leave (Returns (None, Some err)), Decode_call reader :: releases reader)
  | Some (data, None) =>
      let r := constructed_response remote resp data in
      (leave (Returns (Some (Format (EntityFormatter_ cfg) r), None)),
       Decode_call reader :: Format_call r :: releases reader)
  end.
Proof.
unfold call, DefaultHTTPResponseParserFactory, effective_byte_source,
  constructed_response.
destruct (String.eqb_spec
            (http.Header_Get (http.Header resp) "Content-Encoding") "gzip")
  as [He|He].
- rewrite bool_decide_eq_true_2 by done.
  destruct (fst (gzip.NewReader open_member (http.Body resp))) as [z|];
    unfold defer, call_decoder, call_Format, mbind, go_bind, bind, emit,
      ReadCloser_Close, panic, ret;
    cbn [app releases];
    (destruct (run_decoder _ _) as [[data [err|]]|]; reflexivity).
- rewrite bool_decide_eq_false_2 by done.
  unfold defer, call_decoder, call_Format, mbind, go_bind, bind, emit,
    ReadCloser_Close, panic, ret;
    cbn [app releases];
    (destruct (run_decoder _ _) as [[data [err|]]|]; reflexivity).
Qed.

(** The formatter is called at most once, on the constructed response, and
    only after the decoder succeeded on the effective byte source. *)
Lemma Format_call_inv (remote : config.Backend)
  (cfg : HTTPResponseParserConfig any) ctx resp r :
In (Format_call r) (snd (parse remote cfg ctx resp)) ->
∃ data,
  run_decoder (Decoder_ cfg) (effective_byte_source open_member resp)
  = Some (data, None)
  ∧ r = constructed_response remote resp data.
Proof.
rewrite decode_path_run. cbv zeta.
destruct (run_decoder _ _) as [[data [err|]]|]; cbn [snd In];
  destruct (effective_byte_source open_member resp) as [?|[?|]];
  cbn [releases In]; intros Hin;
  repeat (destruct Hin as [Hin|Hin]; [try discriminate|]);
  try contradiction; injection Hin as <-; eauto.
Qed.

Lemma Decode_call_inv (remote : config.Backend)
  (cfg : HTTPResponseParserConfig any) ctx resp reader :
In (Decode_call reader) (snd (parse remote cfg ctx resp)) ->
reader = effective_byte_source open_member resp.
Proof.
rewrite decode_path_run. cbv zeta.
destruct (run_decoder _ _) as [[data [err|]]|]; cbn [snd In];
  destruct (effective_byte_source open_member resp) as [?|[?|]];
  cbn [releases In]; intros Hin;
  repeat (destruct Hin as [Hin|Hin]; [try discriminate|]);
  try contradiction; injection Hin as <-; eauto.
Qed.

(** A response that is returned is the formatter's image of the response
    that was built. *)
Lemma returned_is_formatted (remote : config.Backend)
  (cfg : HTTPResponseParserConfig any) ctx resp r out :
In (Format_call r) (snd (parse remote cfg ctx resp)) ->
fst (parse remote cfg ctx resp) = Returns (Some out, None) ->
out = Format (EntityFormatter_ cfg) r.
Proof.
intros (data & Hrun & ->)%Format_call_inv.
rewrite decode_path_run. cbv zeta. rewrite Hrun.
destruct (effective_byte_source open_member resp) as [?|[?|]]; cbn [fst];
  congruence.
Qed.

(** The decoder is called once, first of all, and on a reader chosen by
    the Content-Encoding header alone: the result of [gzip.NewReader] on the
    raw body when the value is gzip, be it nil, and the raw body itself for
    every other value, an absent header included. *)
Lemma decoder_called_on_selected_reader (remote : config.Backend)
  (cfg : HTTPResponseParserConfig any) ctx resp :
∃ rest,
  snd (parse remote cfg ctx resp)
  = Decode_call
      (if bool_decide
            (http.Header_Get (http.Header resp) "Content-Encoding" = "gzip")
       then gzip_stream (fst (gzip.NewReader open_member (http.Body resp)))
       else body_stream (http.Body resp))
    :: rest
  ∧ Forall (fun e => ∀ reader, e ≠ Decode_call reader) rest.
Proof.
rewrite decode_path_run. cbv zeta.
fold (effective_byte_source open_member resp).
destruct (run_decoder _ _) as [[data [err|]]|]; cbn [snd];
  eexists; (split; [reflexivity|]);
  destruct (effective_byte_source open_member resp) as [?|[?|]];
  cbn [releases]; repeat constructor; discriminate.
Qed.

(** C1, on the failing input: the response announces gzip and its body
    does not open as a gzip stream. The reader the decoder is called with
    is then no gzip stream around the raw body but a nil pointer: no read
    on it delivers a byte, each one panics, and so does the call. *)
Theorem C1_nil_reader_when_gzip_does_not_open (remote : config.Backend)
  (cfg : HTTPResponseParserConfig any) ctx :
http.Header_Get (http.Header response_not_gzip) "Content-Encoding" = "gzip"
∧ gzip.NewReader open_member (http.Body response_not_gzip)
  = (None, Some io_ErrUnexpectedEOF)
∧ (∃ rest,
     snd (parse remote cfg ctx response_not_gzip)
     = Decode_call (gzip_stream None) :: rest)
∧ (∀ n, ReadCloser_Read (gzip_stream None) n = None)
∧ fst (parse remote cfg ctx response_not_gzip) = Panics.
Proof.
split; [reflexivity|]. split; [reflexivity|].
rewrite decode_path_run. cbv zeta.
change (effective_byte_source open_member response_not_gzip)
  with (gzip_stream None).
destruct (run_decoder _ _) as [[data [err|]]|]; cbn [fst snd]; eauto.
Qed.

(** C2, as amended: when the decoder succeeds on a byte source that opened
    and the formatter leaves the header set as it is, the decode path returns
    a response whose headers are exactly the canonical forms of the
    allow-listed names for which the raw response has a non-empty value, each
    with that one value; and it returns the same headers for a permuted
    allow-list. *)
Theorem C2_projected_headers (remote : config.Backend)
  (cfg : HTTPResponseParserConfig any) ctx resp data :
effective_byte_source open_member resp ≠ gzip_stream None ->
run_decoder (Decoder_ cfg) (effective_byte_source open_member resp)
= Some (data, None) ->
(∀ r, Headers (Metadata_ (Format (EntityFormatter_ cfg) r))
      = Headers (Metadata_ r)) ->
∃ out,
  fst (parse remote cfg ctx resp) = Returns (Some out, None)
  ∧ (∀ k vs,
       Headers (Metadata_ out) !! k = Some vs
       <-> ∃ name, name ∈ config.HeadersFromResponse remote
                 ∧ textproto.CanonicalMIMEHeaderKey name = k
                 ∧ http.Header_Get (http.Header resp) k ≠ ""
                 ∧ vs = [http.Header_Get (http.Header resp) k])
  ∧ (∀ remote',
       config.HeadersFromResponse remote' ≡ₚ config.HeadersFromResponse remote ->
       ∃ out',
         fst (parse remote' cfg ctx resp) = Returns (Some out', None)
         ∧ Headers (Metadata_ out') = Headers (Metadata_ out)).
Proof.
intros Hnil Hrun Hkeep.
assert (Hret : ∀ remote0,
  fst (parse remote0 cfg ctx resp)
  = Returns (Some (Format (EntityFormatter_ cfg)
                     (constructed_response remote0 resp data)), None)).
{ intros remote0. rewrite decode_path_run. cbv zeta. rewrite Hrun.
  by destruct (effective_byte_source open_member resp) as [?|[?|]]. }
eexists. split; [apply Hret|]. split.
- intros k vs. rewrite Hkeep. cbn. apply project_headers_iff.
- intros remote' Hp. eexists. split; [apply Hret|].
  rewrite !Hkeep. cbn. by apply project_headers_perm.
Qed.

(** C10: of a header that the raw response carries with several values, the
    decode path takes over nothing but the first one, under the canonical
    name: the values after it are dropped. *)
Theorem C10_first_value_only (remote : config.Backend)
  (cfg : HTTPResponseParserConfig any) ctx resp r name v1 v2 more :
In (Format_call r) (snd (parse remote cfg ctx resp)) ->
name ∈ config.HeadersFromResponse remote ->
http.Header resp !! textproto.CanonicalMIMEHeaderKey name = Some (v1 :: v2 :: more) ->
(∀ vs,
   Headers (Metadata_ r) !! textproto.CanonicalMIMEHeaderKey name = Some vs ->
   vs = [v1])
∧ (v1 ≠ "" ->
   Headers (Metadata_ r) !! textproto.CanonicalMIMEHeaderKey name = Some [v1]).
Proof.
intros (data & _ & ->)%Format_call_inv Hname Hraw. cbn.
assert (Hget : http.Header_Get (http.Header resp)
                 (textproto.CanonicalMIMEHeaderKey name) = v1).
{ by rewrite Header_Get_canonical, Hraw. }
split.
- intros vs (n & _ & _ & _ & ->)%project_headers_iff. by rewrite Hget.
- intros Hne. apply project_headers_iff. exists name. by rewrite Hget.
Qed.

(** C5: when the decoder succeeds on the reader it was called with, the
    decode path builds one response and hands it to the formatter: complete,
    holding the decoded payload and the projected headers, without a status
    code and without a stream; the passthrough parser is the one that copies
    the status code. *)
Theorem C5_constructed_response (remote : config.Backend)
  (cfg : HTTPResponseParserConfig any) ctx resp reader data :
In (Decode_call reader) (snd (parse remote cfg ctx resp)) ->
run_decoder (Decoder_ cfg) reader = Some (data, None) ->
(∃ r,
   (∀ r', In (Format_call r') (snd (parse remote cfg ctx resp)) <-> r' = r)
   ∧ IsComplete r = true
   ∧ Data r = data
   ∧ Headers (Metadata_ r) = project_headers remote (http.Header resp)
   ∧ StatusCode (Metadata_ r) = 0%Z
   ∧ Io r = None)
∧ (∃ r : Response any,
     fst (call (NoOpHTTPResponseParser ctx resp)) = Returns (Some r, None)
     ∧ StatusCode (Metadata_ r) = http.StatusCode resp).
Proof.
intros ->%Decode_call_inv Hrun. split.
- exists (constructed_response remote resp data).
  split; [|by repeat split].
  intros r'. split.
  + intros (data' & Hrun' & ->)%Format_call_inv. congruence.
  + intros ->. rewrite decode_path_run. cbv zeta. rewrite Hrun.
    cbn [snd In]. auto.
- eexists. split; reflexivity.
Qed.

(** C6: the passthrough parser returns, with a nil error and without a call
    on any collaborator, a complete response with an empty payload, the
    status code and the whole header set of the raw response, and a stream
    wrapped around the raw body; for status 200, the header X-Foo: bar and
    the body [{"a":1}], the stream read to its end under a live context
    yields those bytes. *)
Theorem C6_passthrough ctx resp :
(∃ r w,
   call (NoOpHTTPResponseParser (any := any) ctx resp)
   = (Returns (Some r, None), [])
   ∧ Data r = Some ∅
   ∧ IsComplete r = true
   ∧ StatusCode (Metadata_ r) = http.StatusCode resp
   ∧ Headers (Metadata_ r) = http.Header resp
   ∧ Io r = Some w
   ∧ w = NewReadCloserWrapper ctx (http.Body resp))
∧ (∃ r w,
     fst (call (NoOpHTTPResponseParser (any := any) ctx response_a1))
     = Returns (Some r, None)
     ∧ IsComplete r = true
     ∧ Data r = Some ∅
     ∧ StatusCode (Metadata_ r) = 200%Z
     ∧ http.Header_Get (Headers (Metadata_ r)) "X-Foo" = "bar"
     ∧ Io r = Some w
     ∧ (context.Err ctx = None -> wrapper_ReadAll w = (body_a1, None))).
Proof.
split.
- do 2 eexists. repeat split.
- do 2 eexists. repeat split.
  intros Hlive. unfold wrapper_ReadAll, NewReadCloserWrapper.
  cbn [wrapper_ctx wrapper_rc]. by rewrite Hlive.
Qed.

(** C7, as amended: a response built by the decode path has no stream
    attached and holds the payload the decoder left, whatever it is, and the
    value returned is the formatter's image of it; a passthrough result has
    a stream attached and an empty payload. *)
Theorem C7_content_carriers (remote : config.Backend)
  (cfg : HTTPResponseParserConfig any) ctx resp :
(∀ r,
   In (Format_call r) (snd (parse remote cfg ctx resp)) ->
   stream_attached r = false
   ∧ run_decoder (Decoder_ cfg) (effective_byte_source open_member resp)
     = Some (Data r, None)
   ∧ (∀ out,
        fst (parse remote cfg ctx resp) = Returns (Some out, None) ->
        out = Format (EntityFormatter_ cfg) r))
∧ (∃ r : Response any,
     fst (call (NoOpHTTPResponseParser ctx resp)) = Returns (Some r, None)
     ∧ stream_attached r = true
     ∧ payload_populated r = false).
Proof.
split.
- intros r Hin. pose proof Hin as (data & Hrun & ->)%Format_call_inv.
  repeat split; [done|]. intros out. by apply returned_is_formatted.
- eexists. repeat split.
Qed.

(** C8: whatever way the decode path is left (a response, a decoder error,
    a panic), the last thing it does is to close the raw body, once; and
    when a gzip reader was opened it is closed too, once, just before the
    body. Nothing else is ever closed. *)
Theorem C8_streams_released (remote : config.Backend)
  (cfg : HTTPResponseParserConfig any) ctx resp :
∃ before,
  closes before = []
  ∧ snd (parse remote cfg ctx resp)
    = (before
       ++ match bool_decide
                  (http.Header_Get (http.Header resp) "Content-Encoding" = "gzip"),
                fst (gzip.NewReader open_member (http.Body resp)) with
          | true, Some _ => [Close_gzip; Close_body]
          | _, _ => [Close_body]
          end)%list.
Proof.
rewrite decode_path_run. cbv zeta. unfold effective_byte_source.
destruct (bool_decide _);
  [destruct (fst (gzip.NewReader open_member (http.Body resp))) as [z|]|];
  (destruct (run_decoder _ _) as [[data [err|]]|]; cbn [snd releases];
   [eexists [_] | eexists [_; _] | eexists [_]];
   (split; [|reflexivity]); reflexivity).
Qed.

(** The decode path on a reader that is no nil pointer: a decoder error
    comes back as it is, with a nil response. *)
Lemma decoder_error_returned (remote : config.Backend)
  (cfg : HTTPResponseParserConfig any) ctx resp data err :
effective_byte_source open_member resp ≠ gzip_stream None ->
run_decoder (Decoder_ cfg) (effective_byte_source open_member resp)
= Some (data, Some err) ->
fst (parse remote cfg ctx resp) = Returns (None, Some err)
∧ ∀ r, ¬ In (Format_call r) (snd (parse remote cfg ctx resp)).
Proof.
intros Hnil Hrun. split.
- rewrite decode_path_run. cbv zeta. rewrite Hrun.
  by destruct (effective_byte_source open_member resp) as [?|[?|]].
- intros r (data' & Hrun' & _)%Format_call_inv. congruence.
Qed.

(** A gzip response whose stream does not open makes the decode path
    panic, whatever the decoder and the formatter: the decoder's first read
    dereferences the nil reader, and so does the deferred release. *)
Lemma nil_gzip_reader_panics (remote : config.Backend)
  (cfg : HTTPResponseParserConfig any) ctx resp :
http.Header_Get (http.Header resp) "Content-Encoding" = "gzip" ->
fst (gzip.NewReader open_member (http.Body resp)) = None ->
fst (parse remote cfg ctx resp) = Panics.
Proof.
intros He Hz. rewrite decode_path_run. cbv zeta. unfold effective_byte_source.
rewrite bool_decide_eq_true_2, Hz by done.
by destruct (run_decoder _ _) as [[data [err|]]|].
Qed.

(** A gzip stream that opens and then turns out corrupt does surface as an
    error of the read, which the decoder sees. *)
Lemma corrupt_gzip_read_error z n :
gzip.pending z = [] ->
∃ reader',
  ReadCloser_Read (gzip_stream (Some z)) n = Some ([], Some (gzip.final z), reader').
Proof. intros Hz. destruct z as [p f]. cbn in Hz. subst p. by eexists. Qed.

(** C3, on the failing input: the decoder answers an error without reading,
    the response announces gzip, and its body is no gzip stream. The error
    is lost: the call panics in the deferred release of the nil reader. *)
Theorem C3_error_lost_on_nil_gzip_reader (remote : config.Backend)
  (f : EntityFormatter any) ctx err :
run_decoder (any := any) (Return None (Some err))
  (effective_byte_source open_member response_not_gzip)
= Some (None, Some err)
∧ parse remote {| Decoder_ := Return None (Some err); EntityFormatter_ := f |}
    ctx response_not_gzip
  = (Panics, [Decode_call (gzip_stream None); Close_body]).
Proof. split; reflexivity. Qed.

(** C4, on the failing input: a response that announces gzip with a body
    that is no gzip stream makes the decode path panic, for every decoder
    and formatter; no error is returned to the caller. *)
Theorem C4_malformed_gzip_panics (remote : config.Backend)
  (cfg : HTTPResponseParserConfig any) ctx :
fst (gzip.NewReader open_member (http.Body response_not_gzip)) = None
∧ fst (parse remote cfg ctx response_not_gzip) = Panics.
Proof. split; [reflexivity|]. by apply nil_gzip_reader_panics. Qed.

(** C9: the formatter of the default configuration is idempotent, and with
    it the decode path returns the very response it built from the decoded
    payload. *)
Theorem C9_identity_formatter (remote : config.Backend) (d : Decoder any) ctx resp :
let idf := EntityFormatter_ (DefaultHTTPResponseParserConfig any) in
let cfg := {| Decoder_ := d; EntityFormatter_ := idf |} in
(∀ r, Format idf (Format idf r) = Format idf r)
∧ (∀ out,
     fst (parse remote cfg ctx resp) = Returns (Some out, None) ->
     In (Format_call out) (snd (parse remote cfg ctx resp))
     ∧ ∃ data,
         run_decoder d (effective_byte_source open_member resp) = Some (data, None)
         ∧ out = constructed_response remote resp data).
Proof.
intros idf cfg. split; [reflexivity|].
intros out. rewrite decode_path_run. cbv zeta.
destruct (run_decoder _ _) as [[data [err|]]|] eqn:Hrun;
  destruct (effective_byte_source open_member resp) as [?|[?|]];
  cbn [fst snd]; intros [= <-];
  (split; [right; left; reflexivity | eexists; split; reflexivity]).
Qed.

End Parsers.

(** ** The theorems at sample inputs *)

(** C2 as stated fails under a formatter that rewrites the header set: the
    response returned has lost the allow-listed header that the raw
    response carries. *)
Lemma C2_formatter_rewrites_headers :
∃ out : Response Z,
  fst (call (DefaultHTTPResponseParserFactory no_member (backend_allow ["x-foo"])
               {| Decoder_ := Return None None; EntityFormatter_ := drop_headers |}
               context.Background response_a1))
  = Returns (Some out, None)
  ∧ "x-foo" ∈ config.HeadersFromResponse (backend_allow ["x-foo"])
  ∧ textproto.CanonicalMIMEHeaderKey "x-foo" = "X-Foo"
  ∧ http.Header_Get (http.Header response_a1) "X-Foo" = "bar"
  ∧ Headers (Metadata_ out) !! "X-Foo" = None.
Proof. eexists. repeat split. left. Qed.

(** C2 as amended, at the response with X-Foo: bar, the allow-list x-foo,
    content-type and the default configuration: a response is returned, and
    the header is taken over under its canonical name. *)
Lemma C2_projected_headers_witness :
∃ out : Response Z,
  fst (call (DefaultHTTPResponseParserFactory no_member
               (backend_allow ["x-foo"; "content-type"])
               (DefaultHTTPResponseParserConfig Z) context.Background response_a1))
  = Returns (Some out, None)
  ∧ Headers (Metadata_ out) !! "X-Foo" = Some ["bar"]
  ∧ Headers (Metadata_ out) !! "Content-Type" = None.
Proof.
destruct (C2_projected_headers Z no_member
            (backend_allow ["x-foo"; "content-type"])
            (DefaultHTTPResponseParserConfig Z) context.Background response_a1 None)
  as (out & Hret & Hiff & _).
- vm_compute. discriminate.
- reflexivity.
- reflexivity.
- exists out. split; [exact Hret|]. split.
  + apply Hiff. exists "x-foo". repeat split; [left|vm_compute; discriminate].
  + destruct (Headers (Metadata_ out) !! "Content-Type") as [vs|] eqn:Hct; [|done].
    apply Hiff in Hct as (name & _ & _ & Hne & _). exfalso. by apply Hne.
Defined.

(** C10 at a response with two Set-Cookie values. *)
Lemma C10_first_value_only_witness :
(∀ vs,
   Headers (Metadata_ (constructed_response (any := Z)
                         (backend_allow ["set-cookie"]) response_multi None))
     !! "Set-Cookie" = Some vs ->
   vs = ["a=1"])
∧ ("a=1" ≠ "" ->
   Headers (Metadata_ (constructed_response (any := Z)
                         (backend_allow ["set-cookie"]) response_multi None))
     !! "Set-Cookie" = Some ["a=1"]).
Proof.
apply (C10_first_value_only Z no_member (backend_allow ["set-cookie"])
         (DefaultHTTPResponseParserConfig Z) context.Background response_multi
         (constructed_response (backend_allow ["set-cookie"]) response_multi None)
         "set-cookie" "a=1" "b=2" []).
- right; left; reflexivity.
- left.
- vm_compute. reflexivity.
Defined.

(** C5 at the body [{}] under a decoder that stores the empty object. *)
Lemma C5_constructed_response_witness :
∃ r : Response Z,
  In (Format_call r)
    (snd (call (DefaultHTTPResponseParserFactory no_member (backend_allow ["x-foo"])
                  {| Decoder_ := decode_empty_object;
                     EntityFormatter_ := EntityFormatterFunc (fun r => r) |}
                  context.Background response_multi)))
  ∧ IsComplete r = true
  ∧ Data r = Some ∅
  ∧ StatusCode (Metadata_ r) = 0%Z
  ∧ Io r = None.
Proof.
destruct (C5_constructed_response Z no_member (backend_allow ["x-foo"])
            {| Decoder_ := decode_empty_object;
               EntityFormatter_ := EntityFormatterFunc (fun r => r) |}
            context.Background response_multi
            (body_stream body_empty_object) (Some ∅)
            (or_introl eq_refl) eq_refl)
  as [(r & Hr & Hc & Hd & _ & Hs & Hio) _].
exists r. repeat split; try assumption. by apply Hr.
Defined.

(** C6 at the spec's scenario, read under the background context. *)
Lemma C6_passthrough_witness :
∃ (r : Response Z) w,
  fst (call (NoOpHTTPResponseParser context.Background response_a1))
  = Returns (Some r, None)
  ∧ Io r = Some w
  ∧ wrapper_ReadAll w = (body_a1, None).
Proof.
destruct (C6_passthrough Z context.Background response_a1)
  as [_ (r & w & Hcall & _ & _ & _ & _ & Hio & Hread)].
exists r, w. repeat split; try assumption. apply Hread. reflexivity.
Defined.

(** C7 as stated fails on the default configuration of the source: its
    decoder leaves the payload nil, and the decode path attaches no stream,
    so the response returned has neither carrier. *)
Lemma C7_neither_carrier :
∃ r : Response Z,
  fst (call (DefaultHTTPResponseParserFactory no_member (backend_allow [])
               (DefaultHTTPResponseParserConfig Z) context.Background response_a1))
  = Returns (Some r, None)
  ∧ payload_populated r = false
  ∧ stream_attached r = false
  ∧ one_carrier r = false.
Proof. eexists. repeat split. Qed.

(** C7 as amended, at the default configuration. *)
Lemma C7_content_carriers_witness :
stream_attached
  (constructed_response (any := Z) (backend_allow []) response_a1 None) = false.
Proof.
exact (proj1 (proj1 (C7_content_carriers Z no_member (backend_allow [])
                       (DefaultHTTPResponseParserConfig Z) context.Background
                       response_a1)
                _ (or_intror (or_introl eq_refl)))).
Defined.

(** C9 at the response with X-Foo: bar. *)
Lemma C9_identity_formatter_witness :
∃ data : option (gmap string Z),
  run_decoder decode_empty_object (effective_byte_source no_member response_multi)
  = Some (data, None)
  ∧ constructed_response (backend_allow ["x-foo"]) response_multi (Some ∅)
    = constructed_response (backend_allow ["x-foo"]) response_multi data.
Proof.
apply (proj2 (C9_identity_formatter Z no_member (backend_allow ["x-foo"])
                decode_empty_object context.Background response_multi)).
reflexivity.
Defined.

(** ** Runs of the parsers on the sample inputs *)

Example source_deflate :
effective_byte_source no_member (response_encoded "deflate") = body_stream body_a1.
Proof. reflexivity. Qed.

Example source_upper_case_gzip :
effective_byte_source no_member (response_encoded "GZIP") = body_stream body_a1.
Proof. reflexivity. Qed.

Example source_gzip_list :
effective_byte_source no_member (response_encoded "gzip, br") = body_stream body_a1.
Proof. reflexivity. Qed.

Example source_absent :
effective_byte_source no_member response_a1 = body_stream body_a1.
Proof. reflexivity. Qed.

Example source_gzip :
effective_byte_source member_empty_object response_gzip
= gzip_stream (Some {| gzip.pending := body_empty_object; gzip.final := io_EOF |}).
Proof. reflexivity. Qed.

Example source_gzip_short_body :
gzip.NewReader member_empty_object body_a1 = (None, Some io_ErrUnexpectedEOF).
Proof. reflexivity. Qed.

Example source_gzip_empty_body :
gzip.NewReader member_empty_object [] = (None, Some io_EOF).
Proof. reflexivity. Qed.

(** A sound gzip response: decoded from the decompressed bytes, the gzip
    reader released before the body. *)
Example run_gzip :
call (DefaultHTTPResponseParserFactory member_empty_object (backend_allow ["x-foo"])
        {| Decoder_ := decode_empty_object;
           EntityFormatter_ := EntityFormatterFunc (fun r => r) |}
        context.Background response_gzip)
= (Returns (Some (constructed_response (backend_allow ["x-foo"]) response_gzip (Some ∅)),
            None),
   [ Decode_call (effective_byte_source member_empty_object response_gzip);
     Format_call (constructed_response (backend_allow ["x-foo"]) response_gzip (Some ∅));
     Close_gzip; Close_body ]).
Proof. reflexivity. Qed.

(** A gzip response that opens and is corrupt behind its header: the read
    fails, the decoder answers the error, and the parser returns it. *)
Example run_corrupt_gzip :
call (DefaultHTTPResponseParserFactory member_corrupt (backend_allow ["x-foo"])
        {| Decoder_ := decode_first_read;
           EntityFormatter_ := EntityFormatterFunc (fun r => r) |}
        context.Background response_gzip)
= (Returns (None, Some gzip_ErrChecksum),
   [ Decode_call (effective_byte_source member_corrupt response_gzip);
     Close_gzip; Close_body ]).
Proof. reflexivity. Qed.

(** A gzip response that does not open, under a decoder that reads: the
    read itself panics. *)
Example run_not_gzip_reading_decoder :
call (DefaultHTTPResponseParserFactory member_empty_object (backend_allow ["x-foo"])
        {| Decoder_ := decode_first_read;
           EntityFormatter_ := EntityFormatterFunc (fun r => r) |}
        context.Background response_not_gzip)
= (Panics, [Decode_call (gzip_stream None); Close_body]).
Proof. reflexivity. Qed.

(** The same response under the default configuration, whose decoder does
    not read: the response is built, and the deferred release panics. *)
Example run_not_gzip_default_config :
call (DefaultHTTPResponseParserFactory member_empty_object (backend_allow ["x-foo"])
        (DefaultHTTPResponseParserConfig Z) context.Background response_not_gzip)
= (Panics,
   [ Decode_call (gzip_stream None);
     Format_call (constructed_response (backend_allow ["x-foo"]) response_not_gzip None);
     Close_body ]).
Proof. reflexivity. Qed.

(** The body [{}] decodes to an empty payload: the response returned has
    neither a populated payload nor a stream. *)
Example run_empty_object :
∃ r : Response Z,
  fst (call (DefaultHTTPResponseParserFactory no_member (backend_allow ["x-foo"])
               {| Decoder_ := decode_empty_object;
                  EntityFormatter_ := EntityFormatterFunc (fun r => r) |}
               context.Background response_multi))
  = Returns (Some r, None)
  ∧ Data r = Some ∅
  ∧ one_carrier r = false.
Proof. eexists. repeat split. Qed.

(** A decoder error on a plain body comes back with a nil response. *)
Example run_decoder_error :
call (DefaultHTTPResponseParserFactory no_member (backend_allow ["x-foo"])
        {| Decoder_ := decode_empty_object;
           EntityFormatter_ := EntityFormatterFunc (fun r => r) |}
        context.Background response_a1)
= (Returns (None, Some (errors_New "invalid character")),
   [Decode_call (body_stream body_a1); Close_body]).
Proof. reflexivity. Qed.

(** Only the first value of a header survives, and only the allow-listed
    headers. *)
Example run_headers :
project_headers (backend_allow ["set-cookie"; "x-missing"]) (http.Header response_multi)
= {[ "Set-Cookie" := ["a=1"] ]}.
Proof. vm_compute. reflexivity. Qed.

(** ** Further properties of the header projection *)

Section ProjectionMore.

Variable H : http_Header.

(** The projection looks at the allow-list through the canonical forms of
    its names only. *)
Lemma Exists_canonical names k :
Exists (fun name => textproto.CanonicalMIMEHeaderKey name = k
                    ∧ http.Header_Get H k ≠ "") names
<-> k ∈ textproto.CanonicalMIMEHeaderKey <$> names ∧ http.Header_Get H k ≠ "".
Proof.
rewrite Exists_exists, list_elem_of_fmap. split.
- intros (n & Hin & <- & Hne). eauto.
- intros ((n & -> & Hin) & Hne). eauto.
Qed.

(** Allow-lists with the same canonical names, whatever the order, the
    letter case and the repetitions, build the same headers. *)
Theorem project_headers_canonical_names (remote remote' : config.Backend) :
(∀ k, k ∈ textproto.CanonicalMIMEHeaderKey <$> config.HeadersFromResponse remote
      <-> k ∈ textproto.CanonicalMIMEHeaderKey <$> config.HeadersFromResponse remote') ->
project_headers remote H = project_headers remote' H.
Proof.
intros Hsame. apply map_eq. intros k. rewrite !project_headers_lookup.
apply decide_ext. rewrite !Exists_canonical, Hsame. reflexivity.
Qed.

(** Read with [Get], the projected headers answer for an allow-listed name
    what the raw headers answer, and the empty string for any other name. *)
Theorem projected_Header_Get (remote : config.Backend) name :
http.Header_Get (project_headers remote H) name
= if bool_decide (textproto.CanonicalMIMEHeaderKey name
                  ∈ textproto.CanonicalMIMEHeaderKey <$> config.HeadersFromResponse remote)
  then http.Header_Get H name
  else "".
Proof.
unfold http.Header_Get at 1. rewrite project_headers_lookup.
rewrite (decide_ext _ _ _ _ (Exists_canonical _ _)), Header_Get_idem.
destruct (decide (textproto.CanonicalMIMEHeaderKey name
                  ∈ textproto.CanonicalMIMEHeaderKey <$> config.HeadersFromResponse remote))
  as [Hin|Hin].
- rewrite bool_decide_eq_true_2 by done.
  destruct (decide (http.Header_Get H name = "")) as [He|He].
  + rewrite decide_False by tauto. by rewrite He.
  + by rewrite decide_True.
- rewrite bool_decide_eq_false_2 by done. by rewrite decide_False by tauto.
Qed.

(** Every projected header is stored under a canonical key, with exactly
    one value, which is not empty and is the first value the raw headers
    hold under that very key. *)
Theorem projected_headers_wellformed (remote : config.Backend) k vs :
project_headers remote H !! k = Some vs ->
textproto.CanonicalMIMEHeaderKey k = k
∧ ∃ v more, H !! k = Some (v :: more) ∧ v ≠ "" ∧ vs = [v].
Proof.
intros (name & _ & <- & Hne & ->)%project_headers_iff.
split; [apply CanonicalMIMEHeaderKey_idem|].
rewrite Header_Get_canonical in Hne |- *.
destruct (H !! textproto.CanonicalMIMEHeaderKey name) as [[|v more]|]; try done.
eauto.
Qed.

End ProjectionMore.

(** Raw headers that agree on every canonical key answer [Get] alike and
    project alike. *)
Lemma Header_Get_canonical_keys (H H' : http_Header) name :
(∀ k, textproto.CanonicalMIMEHeaderKey k = k -> H !! k = H' !! k) ->
http.Header_Get H name = http.Header_Get H' name.
Proof.
intros Hagree. unfold http.Header_Get.
by rewrite (Hagree _ (CanonicalMIMEHeaderKey_idem name)).
Qed.

Lemma project_headers_canonical_keys (H H' : http_Header) remote :
(∀ k, textproto.CanonicalMIMEHeaderKey k = k -> H !! k = H' !! k) ->
project_headers remote H = project_headers remote H'.
Proof.
intros Hagree. apply map_eq. intros k. rewrite !project_headers_lookup.
rewrite (Header_Get_canonical_keys H H' k Hagree). reflexivity.
Qed.

(** ** Further properties of the decode path *)

Section DecodePath.

Variable any : Type.
Variable open_member : list byte -> error + gzip.Reader.

Local Abbreviation run remote cfg ctx resp :=
  (call (DefaultHTTPResponseParserFactory open_member remote cfg ctx resp)).

(** On a reader that is no nil pointer a decoder that succeeds makes the
    decode path return the formatter's image of the response built from the
    payload, with a nil error, after the formatter was called once and the
    streams were released. *)
Theorem decoder_success_returned (remote : config.Backend)
  (cfg : HTTPResponseParserConfig any) ctx resp data :
effective_byte_source open_member resp ≠ gzip_stream None ->
run_decoder (Decoder_ cfg) (effective_byte_source open_member resp)
= Some (data, None) ->
run remote cfg ctx resp
= (Returns (Some (Format (EntityFormatter_ cfg)
                    (constructed_response remote resp data)), None),
   Decode_call (effective_byte_source open_member resp)
   :: Format_call (constructed_response remote resp data)
   :: releases (effective_byte_source open_member resp)).
Proof.
intros Hnil Hrun. rewrite decode_path_run. cbv zeta. rewrite Hrun.
by destruct (effective_byte_source open_member resp) as [?|[?|]].
Qed.

(** Whenever the decode path returns, exactly one of the response and the
    error is nil; the passthrough parser always returns a response and a nil
    error. *)
Theorem returned_pair_shape (remote : config.Backend)
  (cfg : HTTPResponseParserConfig any) ctx resp :
(∀ r e,
   fst (run remote cfg ctx resp) = Returns (r, e) ->
   (is_Some r ∧ e = None) ∨ (r = None ∧ is_Some e))
∧ (∀ (r : option (Response any)) e,
     fst (call (NoOpHTTPResponseParser ctx resp)) = Returns (r, e) ->
     is_Some r ∧ e = None).
Proof.
split.
- intros r e. rewrite decode_path_run. cbv zeta.
  destruct (run_decoder _ _) as [[data [err|]]|];
    destruct (effective_byte_source open_member resp) as [?|[?|]];
    cbn [fst]; intros [= <- <-]; eauto.
- intros r e [= <- <-]. eauto.
Qed.

(** With [DefaultHTTPResponseParserConfig] a response that does not announce
    gzip always comes back, with a nil error, as a complete response with a
    nil payload and the projected headers, after the body was closed; what
    is returned is the same for every response with these headers, whatever
    its body and its status code. *)
Theorem default_config_plain_response (remote : config.Backend) ctx resp :
http.Header_Get (http.Header resp) "Content-Encoding" ≠ "gzip" ->
run remote (DefaultHTTPResponseParserConfig any) ctx resp
= (Returns (Some (constructed_response remote resp None), None),
   [ Decode_call (body_stream (http.Body resp));
     Format_call (constructed_response remote resp None);
     Close_body ])
∧ ∀ ctx' resp',
    http.Header resp' = http.Header resp ->
    fst (run remote (DefaultHTTPResponseParserConfig any) ctx' resp')
    = fst (run remote (DefaultHTTPResponseParserConfig any) ctx resp).
Proof.
intros He.
assert (Hrun : ∀ ctx0 resp0,
  http.Header resp0 = http.Header resp ->
  run remote (DefaultHTTPResponseParserConfig any) ctx0 resp0
  = (Returns (Some (constructed_response remote resp None), None),
     [ Decode_call (body_stream (http.Body resp0));
       Format_call (constructed_response remote resp None);
       Close_body ])).
{ intros ctx0 resp0 Hh. rewrite decode_path_run. cbv zeta.
  unfold effective_byte_source, constructed_response. rewrite Hh.
  rewrite bool_decide_eq_false_2 by done. reflexivity. }
split; [by apply Hrun|].
intros ctx' resp' Hh. by rewrite (Hrun ctx' resp' Hh), (Hrun ctx resp eq_refl).
Qed.

(** The formatter is called on the runs on which the decoder succeeds, and
    on no other: never after a decoder error, never after a panic. *)
Theorem formatter_called_iff_decoded (remote : config.Backend)
  (cfg : HTTPResponseParserConfig any) ctx resp :
(∃ r, In (Format_call r) (snd (run remote cfg ctx resp)))
<-> ∃ data,
      run_decoder (Decoder_ cfg) (effective_byte_source open_member resp)
      = Some (data, None).
Proof.
split.
- intros (r & (data & Hrun & _)%Format_call_inv). eauto.
- intros (data & Hrun). exists (constructed_response remote resp data).
  rewrite decode_path_run. cbv zeta. rewrite Hrun. cbn [snd In]. auto.
Qed.

(** What a decoder stored before it answered an error is discarded: the run
    is that of a decoder which answers the same error and stores nothing. *)
Theorem partial_payload_discarded (remote : config.Backend)
  (cfg : HTTPResponseParserConfig any) ctx resp data err :
run_decoder (Decoder_ cfg) (effective_byte_source open_member resp)
= Some (data, Some err) ->
run remote cfg ctx resp
= run remote {| Decoder_ := Return None (Some err);
                EntityFormatter_ := EntityFormatter_ cfg |} ctx resp.
Proof.
intros Hrun. rewrite !decode_path_run. cbv zeta. cbn [Decoder_ run_decoder].
by rewrite Hrun.
Qed.

(** The decode path sees the raw headers through their canonical keys only,
    and sees neither the status code nor the context: two responses with the
    same body whose headers agree on every canonical key run alike. *)
Theorem noncanonical_keys_invisible (remote : config.Backend)
  (cfg : HTTPResponseParserConfig any) ctx ctx' resp resp' :
(∀ k, textproto.CanonicalMIMEHeaderKey k = k ->
      http.Header resp !! k = http.Header resp' !! k) ->
http.Body resp = http.Body resp' ->
run remote cfg ctx resp = run remote cfg ctx' resp'.
Proof.
intros Hagree Hbody. rewrite !decode_path_run. cbv zeta.
unfold effective_byte_source, constructed_response.
rewrite (Header_Get_canonical_keys _ _ "Content-Encoding" Hagree),
  (project_headers_canonical_keys _ _ remote Hagree), Hbody.
reflexivity.
Qed.


End DecodePath.

(** ** The further properties at sample inputs *)

(** Two spellings of one allow-list. *)
Lemma project_headers_canonical_names_witness :
project_headers (backend_allow ["x-foo"; "X-FOO"; "content-type"])
  (http.Header response_a1)
= project_headers (backend_allow ["Content-Type"; "X-Foo"])
    (http.Header response_a1).
Proof.
apply (project_headers_canonical_names (http.Header response_a1)
         (backend_allow ["x-foo"; "X-FOO"; "content-type"])
         (backend_allow ["Content-Type"; "X-Foo"])).
intros k.
change (k ∈ ["X-Foo"; "X-Foo"; "Content-Type"] <-> k ∈ ["Content-Type"; "X-Foo"]).
rewrite !elem_of_cons, !elem_of_nil. tauto.
Defined.

(** The projected Set-Cookie header of the response with two cookies. *)
Lemma projected_headers_wellformed_witness :
textproto.CanonicalMIMEHeaderKey "Set-Cookie" = "Set-Cookie"
∧ ∃ v more,
    http.Header response_multi !! "Set-Cookie" = Some (v :: more)
    ∧ v ≠ "" ∧ ["a=1"] = [v].
Proof.
apply (projected_headers_wellformed (http.Header response_multi)
         (backend_allow ["set-cookie"]) "Set-Cookie" ["a=1"]).
vm_compute. reflexivity.
Defined.

(** The body [{"a":1}] under the decoder of the document [{}]. *)
Lemma decoder_error_returned_witness :
fst (call (DefaultHTTPResponseParserFactory no_member (backend_allow ["x-foo"])
             {| Decoder_ := decode_empty_object;
                EntityFormatter_ := EntityFormatterFunc (fun r => r) |}
             context.Background response_a1))
= Returns (None, Some (errors_New "invalid character")).
Proof.
apply (decoder_error_returned Z no_member (backend_allow ["x-foo"])
         {| Decoder_ := decode_empty_object;
            EntityFormatter_ := EntityFormatterFunc (fun r => r) |}
         context.Background response_a1 None (errors_New "invalid character")).
- vm_compute. discriminate.
- reflexivity.
Defined.

(** The body [{}] under the same decoder. *)
Lemma decoder_success_returned_witness :
fst (call (DefaultHTTPResponseParserFactory no_member (backend_allow ["x-foo"])
             {| Decoder_ := decode_empty_object;
                EntityFormatter_ := EntityFormatterFunc (fun r => r) |}
             context.Background response_multi))
= Returns (Some (constructed_response (backend_allow ["x-foo"]) response_multi
                   (Some ∅)), None).
Proof.
rewrite (decoder_success_returned Z no_member (backend_allow ["x-foo"])
           {| Decoder_ := decode_empty_object;
              EntityFormatter_ := EntityFormatterFunc (fun r => r) |}
           context.Background response_multi (Some ∅)).
- reflexivity.
- vm_compute. discriminate.
- reflexivity.
Defined.

(** A run that returns an error returns a nil response. *)
Lemma returned_pair_shape_witness :
(is_Some (None : option (Response Z)) ∧ Some (errors_New "invalid character") = None)
∨ ((None : option (Response Z)) = None
   ∧ is_Some (Some (errors_New "invalid character"))).
Proof.
apply (proj1 (returned_pair_shape Z no_member (backend_allow ["x-foo"])
                {| Decoder_ := decode_empty_object;
                   EntityFormatter_ := EntityFormatterFunc (fun r => r) |}
                context.Background response_a1)).
reflexivity.
Defined.

(** The default configuration on the response with X-Foo: bar and on a
    response with the same headers, another body and another status code. *)
Lemma default_config_plain_response_witness :
fst (call (DefaultHTTPResponseParserFactory no_member (backend_allow ["x-foo"])
             (DefaultHTTPResponseParserConfig Z) context.Background
             {| http.StatusCode := 500;
                http.Header := http.Header response_a1;
                http.Body := body_empty_object |}))
= fst (call (DefaultHTTPResponseParserFactory no_member (backend_allow ["x-foo"])
               (DefaultHTTPResponseParserConfig Z) context.Background response_a1)).
Proof.
apply (default_config_plain_response Z no_member (backend_allow ["x-foo"])
         context.Background response_a1).
- vm_compute. discriminate.
- reflexivity.
Defined.

(** A decoder that stored a key and then failed. *)
Lemma partial_payload_discarded_witness :
call (DefaultHTTPResponseParserFactory no_member (backend_allow ["x-foo"])
        {| Decoder_ := decode_partial;
           EntityFormatter_ := EntityFormatterFunc (fun r => r) |}
        context.Background response_a1)
= call (DefaultHTTPResponseParserFactory no_member (backend_allow ["x-foo"])
          {| Decoder_ := Return None (Some (errors_New "unexpected end of input"));
             EntityFormatter_ := EntityFormatterFunc (fun r => r) |}
          context.Background response_a1).
Proof.
apply (partial_payload_discarded Z no_member (backend_allow ["x-foo"])
         {| Decoder_ := decode_partial;
            EntityFormatter_ := EntityFormatterFunc (fun r => r) |}
         context.Background response_a1 (Some {[ "a" := 1%Z ]})
         (errors_New "unexpected end of input")).
reflexivity.
Defined.

(** Headers stored under lower-case keys count for nothing: the response
    runs like the one without headers, as a plain body. *)
Lemma noncanonical_keys_invisible_witness :
call (DefaultHTTPResponseParserFactory member_empty_object (backend_allow ["x-foo"])
        (DefaultHTTPResponseParserConfig Z) context.Background response_lower_keys)
= call (DefaultHTTPResponseParserFactory member_empty_object (backend_allow ["x-foo"])
          (DefaultHTTPResponseParserConfig Z) context.Background response_bare).
Proof.
apply (noncanonical_keys_invisible Z member_empty_object (backend_allow ["x-foo"])
         (DefaultHTTPResponseParserConfig Z) context.Background context.Background
         response_lower_keys response_bare).
- intros k Hk. cbn [http.Header response_lower_keys response_bare].
  rewrite lookup_empty.
  destruct (decide (k = "content-encoding")) as [->|Hce]; [discriminate Hk|].
  destruct (decide (k = "x-foo")) as [->|Hfoo]; [discriminate Hk|].
  rewrite lookup_insert_ne by done. by rewrite lookup_singleton_ne.
- reflexivity.
Defined.

